(** * CClassifierPyTorch: the PyTorch classifier adapter of secml

    A shallow embedding of [secml/pytorch/classifiers/c_classifier_pytorch.py]
    and [secml/pytorch/data/c_dataset_pytorch.py].

    Conventions of the embedding.
    - Python floats are rationals ([Q]); Python ints are [Z]; positions in a
      sequence are [nat].
    - A Python exception is a value of [exn]; a method that can raise returns
      a [result].
    - The adapter object, the optimizer objects it creates and the logger
      form the state [pystate]; a method is a state transformer in the
      monad [M].  Optimizers live in a heap so that creating a new
      optimizer and updating one in place are different things.
    - torch, torchvision, numpy and the parts of secml that the adapter only
      calls (array container, softmax, accuracy metric, weight-decay
      helper) are not part of the two files; what the adapter needs from
      them is collected in the record [Engine]. *)

From Stdlib Require Import ZArith QArith List Lia.
From stdpp Require Import gmap strings list fin_maps.

Local Open Scope Z_scope.

(** ** Exceptions *)

Inductive exn : Type :=
| ValueError (msg : string)
| RuntimeError (msg : string)
| TypeError (msg : string)
| IndexError
| AttributeError.

Inductive result (A : Type) : Type :=
| Ok (a : A)
| Raise (e : exn).
Arguments Ok {A} a.
Arguments Raise {A} e.

Definition rbind {A B : Type} (r : result A) (k : A -> result B) : result B :=
  match r with
  | Ok a => k a
  | Raise e => Raise e
  end.

Fixpoint rmapM {A B : Type} (f : A -> result B) (l : list A) : result (list B) :=
  match l with
  | [] => Ok []
  | a :: l' =>
      rbind (f a) (fun b => rbind (rmapM f l') (fun bs => Ok (b :: bs)))
  end.

(** ** Tensors and arrays *)

(** A torch tensor or numpy array: its shape and its entries in row-major
    order.  A batch is the list of its slices along the first axis. *)
Record Tensor : Type := mkTensor { t_shape : list Z; t_data : list Q }.

Definition matrix : Type := list (list Q).

(** [tensor.shape] of a batch stacked along axis 0. *)
Definition batch_shape (b : list Tensor) : list Z :=
  Z.of_nat (length b) :: match b with
                         | [] => []
                         | t :: _ => t_shape t
                         end.

(** [shape[-1]]. *)
Definition last_dim (shp : list Z) : Z := List.last shp 0.

Definition prod_shape (shp : list Z) : Z := fold_right Z.mul 1 shp.

(** [numpy.reshape]: the entries are kept, the shape is replaced; the new
    shape has to hold exactly the entries.  [None] is numpy's empty shape. *)
Definition np_reshape (shp : option (list Z)) (p : Tensor) : result Tensor :=
  let s := match shp with Some s => s | None => [] end in
  if prod_shape s =? Z.of_nat (length (t_data p))
  then Ok (mkTensor s (t_data p))
  else Raise (ValueError "cannot reshape array").

(** secml's CArray is flat or two-dimensional. *)
Inductive CArray : Type :=
| Flat (v : list Q)
| Dense (rows : matrix).

Definition atleast_2d (x : CArray) : matrix :=
  match x with
  | Flat v => [v]
  | Dense rows => rows
  end.

(** [CArray.is_vector_like]: flat, or two-dimensional with a single row. *)
Definition is_vector_like (x : CArray) : bool :=
  match x with
  | Flat _ => true
  | Dense rows => Nat.eqb (length rows) 1
  end.

(** Python indexing of a sequence by an int: negative positions count from
    the end. *)
Definition py_index (len : nat) (i : Z) : option nat :=
  if (0 <=? i) && (i <? Z.of_nat len) then Some (Z.to_nat i)
  else if (i <? 0) && (- Z.of_nat len <=? i) then Some (Z.to_nat (Z.of_nat len + i))
  else None.

(** [a[:, y]]: the entries of column [y], one per row. *)
Definition column (y : Z) (a : matrix) : result (list Q) :=
  rmapM (fun row : list Q =>
           match py_index (length row) y with
           | Some j => match row !! j with
                       | Some v => Ok v
                       | None => Raise IndexError
                       end
           | None => Raise IndexError
           end) a.

(** [numpy.argmax] of one row: the first position holding the maximum. *)
Fixpoint argmax_from (best_i i : nat) (best : Q) (l : list Q) : nat :=
  match l with
  | [] => best_i
  | v :: l' =>
      if Qle_bool v best then argmax_from best_i (S i) best l'
      else argmax_from i (S i) v l'
  end.

Definition argmax_row (row : list Q) : result Z :=
  match row with
  | [] => Raise (ValueError "attempt to get argmax of an empty sequence")
  | v :: l => Ok (Z.of_nat (argmax_from 0%nat 1%nat v l))
  end.

(** [a.argmax(axis=1).ravel()]. *)
Definition argmax_axis1 (a : matrix) : result (list Z) := rmapM argmax_row a.

(** [CArray.arange(n)]. *)
Definition arange (n : Z) : list Z := map Z.of_nat (seq 0 (Z.to_nat n)).

(** ** CDatasetPyTorch *)

Inductive labels : Type :=
| Y_flat (y : list Q)
| Y_2d (y : matrix).

Record CDatasetPyTorch : Type := mkDataset {
  X : matrix;
  Y : option labels;
  transform : option (Tensor -> result Tensor)
}.

Definition __len__ (ds : CDatasetPyTorch) : nat := length (X ds).

(** [ds[i]]: the pair (sample, label).  The index is a position, so the
    [is_int] test of the source always passes.  A row of a CArray is a
    1 x n array; a missing label is the tensor -1. *)
Definition __getitem__ (ds : CDatasetPyTorch) (i : nat) : result (Tensor * Tensor) :=
  match X ds !! i with
  | None => Raise IndexError
  | Some row =>
      let sample := mkTensor [1; Z.of_nat (length row)] row in
      rbind (match transform ds with
             | Some f => f sample
             | None => Ok sample
             end)
        (fun sample =>
           rbind (match Y ds with
                  | Some (Y_flat y) =>
                      match y !! i with
                      | Some v => Ok (mkTensor [] [v])
                      | None => Raise IndexError
                      end
                  | Some (Y_2d y) =>
                      match y !! i with
                      | Some r => Ok (mkTensor [1; Z.of_nat (length r)] r)
                      | None => Raise IndexError
                      end
                  | None => Ok (mkTensor [] [(-1)%Q])
                  end)
             (fun label => Ok (sample, label)))
  end.

(** ** DataLoader without shuffling *)

(** torch's BatchSampler over a sequential sampler: indices are collected
    in order, a batch is emitted when it is full, and the last, shorter
    batch is kept. *)
Fixpoint BatchSampler (batch_size : nat) (batch : list nat) (sampler : list nat)
  : list (list nat) :=
  match sampler with
  | [] => match batch with
          | [] => []
          | _ => [batch]
          end
  | idx :: rest =>
      let batch := batch ++ [idx] in
      if Nat.eqb (length batch) batch_size
      then batch :: BatchSampler batch_size [] rest
      else BatchSampler batch_size batch rest
  end.

Record DataLoader : Type := mkDataLoader {
  dataset : CDatasetPyTorch;
  batch_sampler : list (list nat)
}.

(** [DataLoader(ds, batch_size=bs, shuffle=False)]. *)
Definition DataLoader_new (ds : CDatasetPyTorch) (bs : Z) : result DataLoader :=
  if bs <=? 0
  then Raise (ValueError "batch_size should be a positive integer value")
  else Ok (mkDataLoader ds (BatchSampler (Z.to_nat bs) [] (seq 0 (__len__ ds)))).

(** One step of the loader's iterator: fetch the samples of a batch and
    stack samples and labels. *)
Definition fetch (ds : CDatasetPyTorch) (idxs : list nat)
  : result (list Tensor * list Tensor) :=
  rbind (rmapM (__getitem__ ds) idxs) (fun items => Ok (map fst items, map snd items)).

(** ** Networks *)

(** [model.state_dict()]: parameter tensors by name, in declaration order. *)
Definition weights : Type := list (string * Tensor).

(** A torch callable together with its autograd rule.  [fwd w training s]
    is the output on the batch [s]; [vjp w s seed] is the gradient that
    [backward] leaves on the input [s] when the output receives [seed]
    (entries in row-major order). *)
Record Module : Type := mkModule {
  fwd : weights -> bool -> list Tensor -> list Tensor;
  vjp : weights -> list Tensor -> list Q -> list Q
}.

(** The class of a network: its [forward] and its first-level sub-modules
    ([_modules], an ordered dictionary). *)
Record Net : Type := mkNet {
  net_forward : Module;
  _modules : list (string * Module)
}.

(** A network object: class, current parameters, train/eval switch. *)
Record nnModule : Type := mknnModule {
  net : Net;
  params : weights;
  training : bool
}.

Definition parameters (m : nnModule) : list string := map fst (params m).

(** [model.train()] and [model.eval()]. *)
Definition nn_train (m : nnModule) : nnModule := mknnModule (net m) (params m) true.
Definition nn_eval (m : nnModule) : nnModule := mknnModule (net m) (params m) false.

(** [model.load_state_dict(sd)]: the parameter values are overwritten. *)
Definition nn_load_state_dict (m : nnModule) (sd : weights) : nnModule :=
  mknnModule (net m) sd (training m).

(** [model(s)]. *)
Definition nn_call (m : nnModule) (s : list Tensor) : list Tensor :=
  fwd (net_forward (net m)) (params m) (training m) s.

(** ** SGD optimizer *)

Record sgd_defaults : Type := mkDefaults {
  d_lr : Q;
  d_momentum : Q;
  d_weight_decay : Q
}.

(** One entry of [optimizer.param_groups]: the parameters it is bound to
    and the hyper-parameters applied to them. *)
Record param_group : Type := mkGroup {
  pg_params : list string;
  pg_lr : Q;
  pg_momentum : Q;
  pg_weight_decay : Q
}.

(** What is handed to the optimizer's constructor for one group: the
    parameters and an optional weight decay of its own. *)
Record group_spec : Type := mkSpec {
  g_params : list string;
  g_weight_decay : option Q
}.

Record SGD : Type := mkSGD {
  param_groups : list param_group;
  defaults : sgd_defaults;
  state : list (string * Tensor)
}.

(** [optim.SGD(params, lr=, momentum=, weight_decay=)]: every group takes
    the defaults for what it does not set; no momentum buffer exists yet. *)
Definition optim_SGD (specs : list group_spec) (lr momentum weight_decay : Q) : SGD :=
  mkSGD
    (map (fun g => mkGroup (g_params g) lr momentum
                     (match g_weight_decay g with
                      | Some wd => wd
                      | None => weight_decay
                      end)) specs)
    (mkDefaults lr momentum weight_decay)
    [].

(** The record exchanged by [optimizer.state_dict()] and
    [optimizer.load_state_dict()], with the two keys the adapter adds. *)
Record optimizer_state : Type := mkOptState {
  os_state : list (string * Tensor);
  os_param_groups : list param_group;
  os_defaults : option sgd_defaults;
  os_regularize_bias : option bool
}.

Definition SGD_state_dict (o : SGD) : optimizer_state :=
  mkOptState (state o) (param_groups o) None None.

(** [optimizer.load_state_dict(sd)]: the optimizer keeps the parameters it
    is bound to and its defaults, and takes buffers and the groups'
    hyper-parameters from the record.  The record is assumed to have the
    group layout of the optimizer (torch rejects any other). *)
Fixpoint load_groups (own saved : list param_group) : list param_group :=
  match own, saved with
  | g :: own', s :: saved' =>
      mkGroup (pg_params g) (pg_lr s) (pg_momentum s) (pg_weight_decay s)
        :: load_groups own' saved'
  | _, _ => own
  end.

Definition SGD_load_state_dict (o : SGD) (sd : optimizer_state) : SGD :=
  mkSGD (load_groups (param_groups o) (os_param_groups sd)) (defaults o) (os_state sd).

(** ** The checkpoint record *)

(** The dictionary built by [state_dict] and read by [load_state].  The
    keys read with [.get] or under [try] are optional. *)
Record state_record : Type := mkRecord {
  r_optimizer : optimizer_state;
  r_state_dict : weights;
  r_epoch : Z;
  r_acc : option Q;
  r_best_acc : option Q;
  r_input_shape : option (list Z)
}.

(** ** The adapter object *)

Definition loc : Type := nat.

Record CClassifierPyTorch : Type := mkClassifier {
  _model_base : list (string * Z) -> nnModule;
  _model_params : list (string * Z);
  _learning_rate : Q;
  _momentum : Q;
  _weight_decay : Q;
  _loss_id : string;
  _epochs : Z;
  _gamma : Q;
  _lr_schedule : list Z;
  _batch_size : Z;
  _regularize_bias : bool;
  train_transform : option (Tensor -> result Tensor);
  _input_shape : option (list Z);
  _softmax_outputs : bool;
  _start_epoch : Z;
  _acc : Q;
  _best_acc : Q;
  _model : option nnModule;
  _optimizer : option loc;
  _classes : option (list Z);
  _n_features : option Z;
  preprocess : option (matrix -> matrix)
}.

Definition set_learning_rate (v : Q) (c : CClassifierPyTorch) : CClassifierPyTorch :=
  mkClassifier (_model_base c) (_model_params c) v (_momentum c) (_weight_decay c)
    (_loss_id c) (_epochs c) (_gamma c) (_lr_schedule c) (_batch_size c)
    (_regularize_bias c) (train_transform c) (_input_shape c) (_softmax_outputs c)
    (_start_epoch c) (_acc c) (_best_acc c) (_model c) (_optimizer c)
    (_classes c) (_n_features c) (preprocess c).

Definition set_momentum (v : Q) (c : CClassifierPyTorch) : CClassifierPyTorch :=
  mkClassifier (_model_base c) (_model_params c) (_learning_rate c) v (_weight_decay c)
    (_loss_id c) (_epochs c) (_gamma c) (_lr_schedule c) (_batch_size c)
    (_regularize_bias c) (train_transform c) (_input_shape c) (_softmax_outputs c)
    (_start_epoch c) (_acc c) (_best_acc c) (_model c) (_optimizer c)
    (_classes c) (_n_features c) (preprocess c).

Definition set_weight_decay (v : Q) (c : CClassifierPyTorch) : CClassifierPyTorch :=
  mkClassifier (_model_base c) (_model_params c) (_learning_rate c) (_momentum c) v
    (_loss_id c) (_epochs c) (_gamma c) (_lr_schedule c) (_batch_size c)
    (_regularize_bias c) (train_transform c) (_input_shape c) (_softmax_outputs c)
    (_start_epoch c) (_acc c) (_best_acc c) (_model c) (_optimizer c)
    (_classes c) (_n_features c) (preprocess c).


Definition set_regularize_bias (v : bool) (c : CClassifierPyTorch) : CClassifierPyTorch :=
  mkClassifier (_model_base c) (_model_params c) (_learning_rate c) (_momentum c)
    (_weight_decay c) (_loss_id c) (_epochs c) (_gamma c) (_lr_schedule c) (_batch_size c)
    v (train_transform c) (_input_shape c) (_softmax_outputs c)
    (_start_epoch c) (_acc c) (_best_acc c) (_model c) (_optimizer c)
    (_classes c) (_n_features c) (preprocess c).

Definition set_input_shape (v : option (list Z)) (c : CClassifierPyTorch) : CClassifierPyTorch :=
  mkClassifier (_model_base c) (_model_params c) (_learning_rate c) (_momentum c)
    (_weight_decay c) (_loss_id c) (_epochs c) (_gamma c) (_lr_schedule c) (_batch_size c)
    (_regularize_bias c) (train_transform c) v (_softmax_outputs c)
    (_start_epoch c) (_acc c) (_best_acc c) (_model c) (_optimizer c)
    (_classes c) (_n_features c) (preprocess c).

Definition set_start_epoch (v : Z) (c : CClassifierPyTorch) : CClassifierPyTorch :=
  mkClassifier (_model_base c) (_model_params c) (_learning_rate c) (_momentum c)
    (_weight_decay c) (_loss_id c) (_epochs c) (_gamma c) (_lr_schedule c) (_batch_size c)
    (_regularize_bias c) (train_transform c) (_input_shape c) (_softmax_outputs c)
    v (_acc c) (_best_acc c) (_model c) (_optimizer c)
    (_classes c) (_n_features c) (preprocess c).

Definition set_acc (v : Q) (c : CClassifierPyTorch) : CClassifierPyTorch :=
  mkClassifier (_model_base c) (_model_params c) (_learning_rate c) (_momentum c)
    (_weight_decay c) (_loss_id c) (_epochs c) (_gamma c) (_lr_schedule c) (_batch_size c)
    (_regularize_bias c) (train_transform c) (_input_shape c) (_softmax_outputs c)
    (_start_epoch c) v (_best_acc c) (_model c) (_optimizer c)
    (_classes c) (_n_features c) (preprocess c).

Definition set_best_acc (v : Q) (c : CClassifierPyTorch) : CClassifierPyTorch :=
  mkClassifier (_model_base c) (_model_params c) (_learning_rate c) (_momentum c)
    (_weight_decay c) (_loss_id c) (_epochs c) (_gamma c) (_lr_schedule c) (_batch_size c)
    (_regularize_bias c) (train_transform c) (_input_shape c) (_softmax_outputs c)
    (_start_epoch c) (_acc c) v (_model c) (_optimizer c)
    (_classes c) (_n_features c) (preprocess c).

Definition set_model (v : option nnModule) (c : CClassifierPyTorch) : CClassifierPyTorch :=
  mkClassifier (_model_base c) (_model_params c) (_learning_rate c) (_momentum c)
    (_weight_decay c) (_loss_id c) (_epochs c) (_gamma c) (_lr_schedule c) (_batch_size c)
    (_regularize_bias c) (train_transform c) (_input_shape c) (_softmax_outputs c)
    (_start_epoch c) (_acc c) (_best_acc c) v (_optimizer c)
    (_classes c) (_n_features c) (preprocess c).

Definition set_optimizer (v : option loc) (c : CClassifierPyTorch) : CClassifierPyTorch :=
  mkClassifier (_model_base c) (_model_params c) (_learning_rate c) (_momentum c)
    (_weight_decay c) (_loss_id c) (_epochs c) (_gamma c) (_lr_schedule c) (_batch_size c)
    (_regularize_bias c) (train_transform c) (_input_shape c) (_softmax_outputs c)
    (_start_epoch c) (_acc c) (_best_acc c) (_model c) v
    (_classes c) (_n_features c) (preprocess c).

Definition set_classes (v : option (list Z)) (c : CClassifierPyTorch) : CClassifierPyTorch :=
  mkClassifier (_model_base c) (_model_params c) (_learning_rate c) (_momentum c)
    (_weight_decay c) (_loss_id c) (_epochs c) (_gamma c) (_lr_schedule c) (_batch_size c)
    (_regularize_bias c) (train_transform c) (_input_shape c) (_softmax_outputs c)
    (_start_epoch c) (_acc c) (_best_acc c) (_model c) (_optimizer c)
    v (_n_features c) (preprocess c).

Definition set_n_features (v : option Z) (c : CClassifierPyTorch) : CClassifierPyTorch :=
  mkClassifier (_model_base c) (_model_params c) (_learning_rate c) (_momentum c)
    (_weight_decay c) (_loss_id c) (_epochs c) (_gamma c) (_lr_schedule c) (_batch_size c)
    (_regularize_bias c) (train_transform c) (_input_shape c) (_softmax_outputs c)
    (_start_epoch c) (_acc c) (_best_acc c) (_model c) (_optimizer c)
    (_classes c) v (preprocess c).

(** ** State and monad *)

Inductive level : Type := WARNING | INFO | DEBUG.

(** What a run leaves behind besides the objects: log records (the
    message without its formatted numbers) and forward passes. *)
Inductive event : Type :=
| Logged (lv : level) (msg : string)
| ForwardPass (layer : option string) (input : list Tensor).

Record pystate : Type := mkState {
  self : CClassifierPyTorch;
  heap : gmap loc SGD;
  trace : list event
}.

Definition M (A : Type) : Type := pystate -> result A * pystate.

Definition ret {A : Type} (a : A) : M A := fun st => (Ok a, st).

Definition bind {A B : Type} (m : M A) (k : A -> M B) : M B :=
  fun st => match m st with
            | (Ok a, st') => k a st'
            | (Raise e, st') => (Raise e, st')
            end.

Definition raise {A : Type} (e : exn) : M A := fun st => (Raise e, st).

Definition lift {A : Type} (r : result A) : M A := fun st => (r, st).

Definition get_self : M CClassifierPyTorch := fun st => (Ok (self st), st).

Definition update_self (f : CClassifierPyTorch -> CClassifierPyTorch) : M unit :=
  fun st => (Ok tt, mkState (f (self st)) (heap st) (trace st)).

Definition emit (e : event) : M unit :=
  fun st => (Ok tt, mkState (self st) (heap st) (trace st ++ [e])).

Definition logger (lv : level) (msg : string) : M unit := emit (Logged lv msg).

Declare Scope py_scope.
Delimit Scope py_scope with py.
Notation "x <- m ;; k" := (bind m (fun x => k))
  (at level 100, m at next level, right associativity) : py_scope.
Notation "m ;;; k" := (bind m (fun _ => k))
  (at level 100, right associativity) : py_scope.
Local Open Scope py_scope.

(** [self._model] and [self._optimizer]; on [None] any attribute access
    fails. *)
Definition get_model : M nnModule :=
  c <- get_self;;
  match _model c with
  | Some m => ret m
  | None => raise AttributeError
  end.

Definition get_optimizer : M (loc * SGD) :=
  fun st => match _optimizer (self st) with
            | Some l => match heap st !! l with
                        | Some o => (Ok (l, o), st)
                        | None => (Raise AttributeError, st)
                        end
            | None => (Raise AttributeError, st)
            end.

(** In-place update of an optimizer object. *)
Definition store_optimizer (l : loc) (o : SGD) : M unit :=
  fun st => (Ok tt, mkState (self st) (<[l := o]> (heap st)) (trace st)).

(** Allocation of a new optimizer object. *)
Definition new_optimizer (o : SGD) : M loc :=
  fun st => let l := fresh (dom (heap st)) in
            (Ok l, mkState (self st) (<[l := o]> (heap st)) (trace st)).

(** ** External collaborators *)

Inductive loss_kind : Type := CrossEntropy | MSE.

Record Engine : Type := mkEngine {
  (** secml.pytorch.utils.optim_utils.add_weight_decay: the parameter
      groups that exempt biases from the L2 penalty. *)
  add_weight_decay : nnModule -> Q -> list group_spec;
  (** torch.rand(2, *shape). *)
  torch_rand : list Z -> list Tensor;
  (** CSoftmax().softmax on one row of scores. *)
  softmax_row : list Q -> list Q;
  (** CSoftmax().gradient(scores, pos_label). *)
  softmax_gradient : list Q -> option Z -> list Q;
  (** DataLoader(..., shuffle=True): the batches (samples, labels) of one
      epoch. *)
  train_loader : CDatasetPyTorch -> Z -> Z -> list (list Tensor * list Tensor);
  (** MultiStepLR(...).step() for the given epoch. *)
  lr_step : list Z -> Q -> Z -> SGD -> SGD;
  (** torch.nn.CrossEntropyLoss and MSELoss: value of the loss. *)
  loss_value : loss_kind -> list Tensor -> list Tensor -> Q;
  (** zero_grad(); loss.backward(); optimizer.step(). *)
  sgd_step : loss_kind -> nnModule -> SGD -> list Tensor -> list Tensor -> nnModule * SGD;
  (** CMetricPyTorchAccuracy().performance_score. *)
  accuracy : list Tensor -> list Tensor -> Q
}.

Section Adapter.

Variable E : Engine.

(** ** Model and optimizer life cycle *)

(** [init_model]: the model function is called on the stored keyword
    arguments.  Its result is a network object by type, so the
    [isinstance] test of the source passes. *)
Definition init_model : M unit :=
  c <- get_self;;
  update_self (set_model (Some (_model_base c (_model_params c)))).

(** The optimizer that [init_optimizer] builds for the adapter [c] and the
    model [m]: SGD over the parameters of [m], grouped by
    [add_weight_decay] when biases are exempt from a non-zero weight
    decay. *)
Definition build_SGD (c : CClassifierPyTorch) (m : nnModule) : SGD :=
  let params :=
    if negb (Qeq_bool (_weight_decay c) 0) && negb (_regularize_bias c)
    then add_weight_decay E m (_weight_decay c)
    else [mkSpec (parameters m) None] in
  optim_SGD params (_learning_rate c) (_momentum c) (_weight_decay c).

(** [init_optimizer]: a new optimizer object replaces the handle. *)
Definition init_optimizer : M unit :=
  c <- get_self;;
  m <- get_model;;
  l <- new_optimizer (build_SGD c m);;
  update_self (set_optimizer (Some l)).




Definition regularize_bias_setter (value : bool) : M unit :=
  update_self (set_regularize_bias value).

(** ** Export and import of the training state *)

Definition state_dict : M state_record :=
  c <- get_self;;
  lo <- get_optimizer;;
  m <- get_model;;
  let od := SGD_state_dict (snd lo) in
  ret (mkRecord
         (mkOptState (os_state od) (os_param_groups od)
            (Some (defaults (snd lo))) (Some (_regularize_bias c)))
         (params m)
         (_start_epoch c + 1)
         (Some (_acc c))
         (Some (_best_acc c))
         (_input_shape c)).

Definition py_sum (l : list Z) : Z := fold_right Z.add 0 l.

Definition or_default (o : option Q) (d : Q) : Q :=
  match o with
  | Some v => v
  | None => d
  end.

(** [load_state(state_dict)] with [dataparallel=False]. *)
Definition load_state (sd : state_record) : M unit :=
  recreate_optimizer <-
    match os_defaults (r_optimizer sd) with
    | Some d =>
        update_self (set_learning_rate (d_lr d));;;
        update_self (set_momentum (d_momentum d));;;
        update_self (set_weight_decay (d_weight_decay d));;;
        ret true
    | None =>
        logger WARNING
          "State dictionary has no defaults for the optimizer parameters. Keeping current values";;;
        ret false
    end;;
  recreate_optimizer <-
    match os_regularize_bias (r_optimizer sd) with
    | Some b => regularize_bias_setter b;;; ret true
    | None => ret recreate_optimizer
    end;;
  (if recreate_optimizer : bool then init_optimizer else ret tt);;;
  lo <- get_optimizer;;
  store_optimizer (fst lo) (SGD_load_state_dict (snd lo) (r_optimizer sd));;;
  update_self (set_start_epoch (r_epoch sd));;;
  update_self (set_acc (or_default (r_acc sd) 0));;;
  update_self (set_best_acc (or_default (r_best_acc sd) 0));;;
  m <- get_model;;
  update_self (set_model (Some (nn_load_state_dict m (r_state_dict sd))));;;
  c <- get_self;;
  match _input_shape c with
  | None => update_self (set_input_shape (r_input_shape sd))
  | Some _ => ret tt
  end;;;
  c <- get_self;;
  match _input_shape c with
  | None => raise (RuntimeError "`input_shape` is not known. Cannot load state")
  | Some shp =>
      update_self (set_n_features (Some (py_sum shp)));;;
      let x := torch_rand E shp in
      m <- get_model;;
      emit (ForwardPass None x);;;
      update_self (set_classes (Some (arange (last_dim (batch_shape (nn_call m x))))))
  end.

(** ** Inference *)

(** Modelled from the spec: [is_clear] belongs to the parent class
    CClassifier, which is not among the files.  An adapter is clear until a
    fit or a state import has set its classes and its feature count. *)
Definition is_clear (c : CClassifierPyTorch) : bool :=
  match _classes c, _n_features c with
  | None, None => true
  | _, _ => false
  end.

(** The loader over test samples: no labels, no shuffling, and every
    sample reshaped to the input shape. *)
Definition _get_test_input_loader (x : matrix) : M DataLoader :=
  c <- get_self;;
  dl <- lift (DataLoader_new (mkDataset x None None) (_batch_size c));;
  ret (mkDataLoader
         (mkDataset (X (dataset dl)) (Y (dataset dl)) (Some (np_reshape (_input_shape c))))
         (batch_sampler dl)).

(** [CArray(logits.squeeze(1).data.cpu().numpy()).astype(float)]: one row
    of class scores per sample.  ([squeeze(1)] drops the singleton axis
    that a 1 x n sample leaves in the output; the network is taken to have
    more than one output.) *)
Definition to_scores (logits : list Tensor) : matrix := map t_data logits.

(** [CSoftmax().softmax(scores)]: the softmax of every row. *)
Definition CSoftmax_softmax (scores : matrix) : matrix := map (softmax_row E) scores.

Definition append_rows {A : Type} (scores : option (list A)) (logits : list A)
  : option (list A) :=
  match scores with
  | Some sc => Some (sc ++ logits)
  | None => Some logits
  end.

(** The batch loop of [_decision_function]. *)
Fixpoint _decision_function_loop (ds : CDatasetPyTorch) (y : Z)
  (batches : list (list nat)) (scores : option (list Q)) : M (option (list Q)) :=
  match batches with
  | [] => ret scores
  | b :: rest =>
      sl <- lift (fetch ds b);;
      logger INFO "Classification: {batch}/{size}";;;
      m <- get_model;;
      emit (ForwardPass None (fst sl));;;
      let logits := to_scores (nn_call m (fst sl)) in
      c <- get_self;;
      let logits := if _softmax_outputs c then CSoftmax_softmax logits else logits in
      logits <- lift (column y logits);;
      _decision_function_loop ds y rest (append_rows scores logits)
  end.

Definition _decision_function (x : matrix) (y : Z) : M (list Q) :=
  c <- get_self;;
  if is_clear c then raise (ValueError "make sure the classifier is trained first.")
  else
    x_loader <- _get_test_input_loader x;;
    m <- get_model;;
    update_self (set_model (Some (nn_eval m)));;;
    scores <- _decision_function_loop (dataset x_loader) y (batch_sampler x_loader) None;;
    match scores with
    | Some sc => ret sc
    | None => raise AttributeError
    end.

Definition normalize (x : matrix) : M matrix :=
  c <- get_self;;
  match preprocess c with
  | Some f => ret (f x)
  | None => ret x
  end.

Definition decision_function (x : CArray) (y : Z) : M (list Q) :=
  x <- normalize (atleast_2d x);;
  _decision_function x y.

Inductive prediction : Type :=
| Labels (labels : list Z)
| LabelsAndScores (labels : list Z) (scores : matrix).

Definition labels_of (p : prediction) : list Z :=
  match p with
  | Labels l => l
  | LabelsAndScores l _ => l
  end.

(** The batch loop of [predict]. *)
Fixpoint predict_loop (ds : CDatasetPyTorch)
  (batches : list (list nat)) (scores : option matrix) : M (option matrix) :=
  match batches with
  | [] => ret scores
  | b :: rest =>
      sl <- lift (fetch ds b);;
      logger INFO "Classification: {batch}/{size}";;;
      m <- get_model;;
      emit (ForwardPass None (fst sl));;;
      let logits := to_scores (nn_call m (fst sl)) in
      predict_loop ds rest (append_rows scores logits)
  end.

Definition predict (x : CArray) (return_decision_function : bool) : M prediction :=
  c <- get_self;;
  if is_clear c then raise (ValueError "make sure the classifier is trained first.")
  else
    x_carray <- normalize (atleast_2d x);;
    x_loader <- _get_test_input_loader x_carray;;
    m <- get_model;;
    update_self (set_model (Some (nn_eval m)));;;
    scores <- predict_loop (dataset x_loader) (batch_sampler x_loader) None;;
    match scores with
    | None => raise AttributeError
    | Some scores =>
        c <- get_self;;
        let scores := if _softmax_outputs c then CSoftmax_softmax scores else scores in
        labels <- lift (argmax_axis1 scores);;
        ret (if return_decision_function : bool
             then LabelsAndScores labels scores
             else Labels labels)
    end.

(** ** Gradient *)

(** A tensor that tracks gradients: its value, and the calls that produced
    it from the leaf, each with the input it was given. *)
Record Var : Type := mkVar {
  v_data : list Tensor;
  v_tape : list (Module * list Tensor)
}.

Definition apply_module (md : Module) (w : weights) (training : bool) (s : Var) : Var :=
  mkVar (fwd md w training (v_data s)) (v_tape s ++ [(md, v_data s)]).

(** [out.backward(seed)]: the seed is pulled back through the recorded
    calls, last call first; the result is the gradient on the leaf. *)
Definition backward (w : weights) (tape : list (Module * list Tensor)) (seed : list Q)
  : list Q :=
  fold_right (fun node g => vjp (fst node) w (snd node) g) seed tape.

(** The [for ... else] of [_get_layer_output]: every first-level module is
    applied in turn; the loop is left at the module named [layer], and
    running out of modules raises. *)
Fixpoint layer_loop (w : weights) (layer : string) (mods : list (string * Module))
  (s : Var) : M Var :=
  match mods with
  | [] => raise (ValueError "No layer found!")
  | (m_k, m) :: rest =>
      emit (ForwardPass (Some m_k) (v_data s));;;
      let s := apply_module m w false s in
      if String.eqb m_k layer then ret s else layer_loop w layer rest s
  end.

Definition _get_layer_output (s : Var) (layer : option string) : M Var :=
  m <- get_model;;
  update_self (set_model (Some (nn_eval m)));;;
  match layer with
  | None =>
      emit (ForwardPass None (v_data s));;;
      ret (apply_module (net_forward (net m)) (params m) false s)
  | Some name => layer_loop (params m) name (_modules (net m)) s
  end.

(** The mask [w_in]: zeros with a one at position [y]. *)
Definition one_hot (n : nat) (y : Z) : result (list Q) :=
  match py_index n y with
  | Some j => Ok (<[j := 1%Q]> (replicate n 0%Q))
  | None => Raise IndexError
  end.

(** [_gradient_f(x, y, w, layer)].  Seeds and gradients are kept as their
    entries in row-major order; the in-place product with the softmax
    gradient is entry by entry. *)
Definition _gradient_f (x : CArray) (y : option Z) (w : option CArray)
  (layer : option string) : M CArray :=
  if negb (is_vector_like x)
  then raise (ValueError "gradient can be computed on one sample only.")
  else
    dl <- _get_test_input_loader (atleast_2d x);;
    item <- lift (__getitem__ (dataset dl) 0);;
    let s := mkVar [fst item] [] in
    out <- _get_layer_output s layer;;
    let out_shape :=
      if (length (batch_shape (v_data out)) <? length (batch_shape (v_data s)))%nat
      then 1 :: batch_shape (v_data out)
      else batch_shape (v_data out) in
    w_in <-
      match w with
      | None =>
          match layer with
          | Some _ =>
              raise (ValueError
                "grad can be implicitly created only for the last layer. `w` is needed when `layer` is not None.")
          | None =>
              match y with
              | None =>
                  raise (ValueError
                    "The class label wrt compute the gradient at the last layer is required.")
              | Some y => lift (one_hot (Z.to_nat (last_dim out_shape)) y)
              end
          end
      | Some w => ret (concat (atleast_2d w))
      end;;
    c <- get_self;;
    w_in <-
      match layer, _softmax_outputs c with
      | None, true =>
          let out_carray := concat (map t_data (v_data out)) in
          ret (zip_with Qmult w_in (softmax_gradient E out_carray y))
      | _, _ =>
          match w, y with
          | Some _, Some _ => logger WARNING "`y` will be ignored!"
          | _, _ => ret tt
          end;;;
          ret w_in
      end;;
    m <- get_model;;
    ret (Flat (backward (params m) (v_tape out) w_in)).

(** ** Training *)

(** What [fit] reads from a CDataset: samples, one-versus-all labels,
    classes and feature count. *)
Record CDataset : Type := mkCDataset {
  ds_X : matrix;
  get_labels_asbinary : matrix;
  classes : list Z;
  num_features : Z
}.

(** Modelled from the spec: AverageMeter (secml.utils.mixed_utils) is not
    among the files; it accumulates a running average, weighted by the
    number of samples of each update. *)
Record AverageMeter : Type := mkMeter { am_sum : Q; am_count : Q; avg : Q }.

Definition AverageMeter_new : AverageMeter := mkMeter 0 0 0.

Definition AverageMeter_update (a : AverageMeter) (val : Q) (n : nat) : AverageMeter :=
  let s := (am_sum a + val * inject_Z (Z.of_nat n))%Q in
  let c := (am_count a + inject_Z (Z.of_nat n))%Q in
  mkMeter s c (s / c)%Q.

(** [tensor.squeeze(1)] on a batch: a singleton second axis is dropped. *)
Definition squeeze1 (b : list Tensor) : list Tensor :=
  map (fun t => match t_shape t with
                | 1 :: rest => mkTensor rest (t_data t)
                | _ => t
                end) b.

(** A loss tensor: which criterion produced it, and its value. *)
Record Loss : Type := mkLoss { l_kind : loss_kind; l_item : Q }.

(** The method [loss(x, target)]. *)
Definition loss (x target : list Tensor) : M Loss :=
  c <- get_self;;
  let x := squeeze1 x in
  if String.eqb (_loss_id c) "cross-entropy"
  then ret (mkLoss CrossEntropy (loss_value E CrossEntropy x target))
  else if String.eqb (_loss_id c) "mse"
  then ret (mkLoss MSE (loss_value E MSE x target))
  else raise (ValueError "loss not supported").

(** The loop over the batches of one epoch. *)
Fixpoint train_batches (batches : list (list Tensor * list Tensor))
  (losses acc : AverageMeter) : M (AverageMeter * AverageMeter) :=
  match batches with
  | [] => ret (losses, acc)
  | (x, y) :: rest =>
      let y := squeeze1 y in
      m <- get_model;;
      emit (ForwardPass None x);;;
      let logits := nn_call m x in
      l <- loss logits y;;
      lo <- get_optimizer;;
      let mo := sgd_step E (l_kind l) m (snd lo) x y in
      update_self (set_model (Some (fst mo)));;;
      store_optimizer (fst lo) (snd mo);;;
      let losses := AverageMeter_update losses (l_item l) (length x) in
      let acc := AverageMeter_update acc (accuracy E y logits) (length x) in
      logger DEBUG "Epoch: {epoch}, Batch: ({batch}/{size}) Loss: {loss:.4f} Acc: {acc:.2f}";;;
      train_batches rest losses acc
  end.

(** One epoch up to the end of its batches: the scheduler moves, the
    batches are processed, and the average accuracy is returned. *)
Definition train_epoch (ds_loader : Z -> list (list Tensor * list Tensor)) (epoch : Z)
  : M Q :=
  c <- get_self;;
  lo <- get_optimizer;;
  store_optimizer (fst lo) (lr_step E (_lr_schedule c) (_gamma c) epoch (snd lo));;;
  logger INFO "Epoch: [{curr_epoch}|{epochs}] LR: {lr} - STARTED";;;
  meters <- train_batches (ds_loader epoch) AverageMeter_new AverageMeter_new;;
  logger INFO "Epoch: [{curr_epoch}|{epochs}] Loss: {loss:.4f} Acc: {acc:.2f}";;;
  ret (avg (snd meters)).

Definition Qlt_bool (a b : Q) : bool := negb (Qle_bool b a).

(** [xrange(a, b)]. *)
Definition xrange (a b : Z) : list Z :=
  map (fun i => a + Z.of_nat i) (seq 0 (Z.to_nat (b - a))).

(** One turn of the epoch loop of [_fit]; [best] is the pair
    ([best_epoch], [best_state_dict]), returned as it is on [continue]. *)
Definition fit_epoch (store_best_params : bool)
  (ds_loader : Z -> list (list Tensor * list Tensor))
  (epoch : Z) (best : Z * state_record) : M (Z * state_record) :=
  update_self (set_start_epoch epoch);;;
  a <- train_epoch ds_loader epoch;;
  update_self (set_acc a);;;
  c <- get_self;;
  if store_best_params && Qlt_bool (_acc c) (_best_acc c)
  then ret best
  else
    update_self (set_best_acc (_acc c));;;
    sd <- state_dict;;
    ret (_start_epoch c, sd).

Fixpoint fit_epochs (store_best_params : bool)
  (ds_loader : Z -> list (list Tensor * list Tensor))
  (epochs : list Z) (best : Z * state_record) : M (Z * state_record) :=
  match epochs with
  | [] => ret best
  | epoch :: rest =>
      best <- fit_epoch store_best_params ds_loader epoch best;;
      fit_epochs store_best_params ds_loader rest best
  end.

Definition _fit (dataset : CDataset) (store_best_params : bool) : M unit :=
  c <- get_self;;
  if _epochs c <=? _start_epoch c
  then logger WARNING "Maximum number of epochs reached, no training will be performed."
  else
    let ova_labels := get_labels_asbinary dataset in
    let ds_loader :=
      train_loader E (mkDataset (ds_X dataset) (Some (Y_2d ova_labels)) (train_transform c))
        (_batch_size c) in
    m <- get_model;;
    update_self (set_model (Some (nn_train m)));;;
    let best_epoch := _start_epoch c in
    best_state_dict <- state_dict;;
    best <- fit_epochs store_best_params ds_loader
              (xrange (_start_epoch c) (_epochs c)) (best_epoch, best_state_dict);;
    (if store_best_params
     then logger INFO "Best accuracy {:} obtained on epoch {:}"
     else ret tt);;;
    load_state (snd best).

(** [fit(dataset, warm_start, store_best_params)].  [clear()] of the
    parent class forgets classes and feature count. *)
Definition fit (dataset : CDataset) (warm_start store_best_params : bool) : M unit :=
  c <- get_self;;
  match preprocess c with
  | Some _ =>
      logger WARNING
        "preprocess is not applied to training data. Use `train_transform` parameter if necessary."
  | None => ret tt
  end;;;
  (if warm_start then ret tt
   else
     update_self (set_classes None);;;
     update_self (set_n_features None);;;
     update_self (set_classes (Some (classes dataset)));;;
     update_self (set_n_features (Some (num_features dataset)));;;
     init_model;;;
     update_self (set_start_epoch 0);;;
     update_self (set_best_acc 0);;;
     update_self (set_acc 0);;;
     init_optimizer);;;
  _fit dataset store_best_params.

(** The constructor.  The parent class starts without classes and feature
    count. *)
Definition __init__ (model : list (string * Z) -> nnModule)
  (learning_rate momentum weight_decay : Q) (loss : string) (epochs : Z)
  (gamma : Q) (lr_schedule : list Z) (batch_size : Z) (regularize_bias : bool)
  (train_transform : option (Tensor -> result Tensor))
  (preprocess : option (matrix -> matrix)) (input_shape : option (list Z))
  (softmax_outputs : bool) (model_params : list (string * Z))
  (h : gmap loc SGD) (tr : list event) : result unit * pystate :=
  (init_model;;; init_optimizer)
    (mkState
       (mkClassifier model model_params learning_rate momentum weight_decay loss
          epochs gamma lr_schedule batch_size regularize_bias train_transform
          input_shape softmax_outputs 0 0%Q 0%Q None None None None preprocess)
       h tr).

End Adapter.

(** ** A fully connected layer *)

Definition lookup_param (name : string) (w : weights) : option Tensor :=
  match find (fun kv => String.eqb (fst kv) name) w with
  | Some kv => Some (snd kv)
  | None => None
  end.

(** The rows of a tensor read as a matrix of [n] columns. *)
Fixpoint rows_of (fuel n : nat) (data : list Q) : matrix :=
  match fuel with
  | O => []
  | S fuel' =>
      match data with
      | [] => []
      | _ => take n data :: rows_of fuel' n (drop n data)
      end
  end.

Definition tensor_rows (t : Tensor) : matrix :=
  rows_of (length (t_data t)) (Z.to_nat (last_dim (t_shape t))) (t_data t).

Definition dot (r x : list Q) : Q := fold_right Qplus 0%Q (zip_with Qmult r x).

(** W x + b. *)
Definition affine (W : matrix) (b x : list Q) : list Q :=
  zip_with (fun r bi => (dot r x + bi)%Q) W b.

(** The transpose of W applied to a seed: the sum of the rows of W, each
    scaled by its entry of the seed. *)
Definition WT_vec (n : nat) (W : matrix) (seed : list Q) : list Q :=
  fold_right (fun sr acc => zip_with Qplus (map (Qmult (fst sr)) (snd sr)) acc)
    (replicate n 0%Q) (zip seed W).

Definition replace_last (shp : list Z) (c : Z) : list Z := removelast shp ++ [c].

(** torch.nn.Linear with its parameters stored under the given names. *)
Definition Linear (weight bias : string) : Module :=
  mkModule
    (fun w _ s =>
       match lookup_param weight w, lookup_param bias w with
       | Some wt, Some bt =>
           map (fun t =>
                  mkTensor (replace_last (t_shape t) (Z.of_nat (length (tensor_rows wt))))
                    (affine (tensor_rows wt) (t_data bt) (t_data t))) s
       | _, _ => []
       end)
    (fun w s seed =>
       match lookup_param weight w with
       | Some wt =>
           concat (map (WT_vec (Z.to_nat (last_dim (t_shape wt))) (tensor_rows wt))
                     (rows_of (length seed) (length (tensor_rows wt)) seed))
       | None => []
       end).

(** A network made of one linear layer, registered as [fc]. *)
Definition LinearNet : Net :=
  mkNet (Linear "fc.weight" "fc.bias") [("fc", Linear "fc.weight" "fc.bias")].

(** ** A sample engine over the rationals *)

Definition is_bias (name : string) : bool :=
  String.eqb (String.substring (String.length name - 4) 4 name) "bias".

(** Biases in a group without weight decay, the rest with it. *)
Definition sample_add_weight_decay (m : nnModule) (l2 : Q) : list group_spec :=
  [mkSpec (filter (fun n => is_bias n) (parameters m)) (Some 0%Q);
   mkSpec (filter (fun n => negb (is_bias n)) (parameters m)) (Some l2)].

Definition sample_rand (shp : list Z) : list Tensor :=
  replicate 2 (mkTensor shp (replicate (Z.to_nat (prod_shape shp)) (1 # 2)%Q)).

Definition Qmax_list (l : list Q) : Q :=
  match l with
  | [] => 0%Q
  | v :: l' => fold_right (fun v m => if Qle_bool v m then m else v) v l'
  end.

(** A rational stand-in for the exponential on t <= 0, exact at 0. *)
Definition rexp (t : Q) : Q := (1 / (1 - t + t * t / 2))%Q.

(** Softmax with [rexp] in place of the exponential: scores are shifted by
    their maximum, so a row of equal scores gets its exact softmax, the
    uniform distribution. *)
Definition sample_softmax_row (s : list Q) : list Q :=
  let mx := Qmax_list s in
  let e := map (fun v => rexp (v - mx)) s in
  let total := fold_right Qplus 0%Q e in
  map (fun v => (v / total)%Q) e.

(** Row [y] of the softmax Jacobian: s_y (delta_iy - s_i). *)
Definition sample_softmax_gradient (s : list Q) (y : option Z) : list Q :=
  match y with
  | None => []
  | Some y =>
      let sm := sample_softmax_row s in
      match py_index (length sm) y with
      | None => []
      | Some j =>
          let sy := nth j sm 0%Q in
          imap (fun i si => (sy * ((if Nat.eqb i j then 1 else 0) - si))%Q) sm
      end
  end.

(** Batches in dataset order (one of the orders a shuffle can draw). *)
Definition sample_train_loader (ds : CDatasetPyTorch) (bs : Z) (epoch : Z)
  : list (list Tensor * list Tensor) :=
  match rmapM (fetch ds) (BatchSampler (Z.to_nat bs) [] (seq 0 (__len__ ds))) with
  | Ok batches => batches
  | Raise _ => []
  end.

(** The learning rate of every group is multiplied by gamma at a
    milestone. *)
Definition sample_lr_step (milestones : list Z) (gamma : Q) (epoch : Z) (o : SGD) : SGD :=
  if existsb (Z.eqb epoch) milestones
  then mkSGD (map (fun g => mkGroup (pg_params g) (pg_lr g * gamma)%Q (pg_momentum g)
                              (pg_weight_decay g)) (param_groups o))
         (defaults o) (state o)
  else o.

Definition sample_loss_value (k : loss_kind) (x target : list Tensor) : Q :=
  fold_right Qplus 0%Q
    (zip_with (fun a b => ((a - b) * (a - b))%Q)
       (concat (map t_data x)) (concat (map t_data target))).

(** The weight-decay part of an SGD step: every parameter shrinks by the
    factor 1 - lr * weight_decay. *)
Definition sample_sgd_step (k : loss_kind) (m : nnModule) (o : SGD)
  (x y : list Tensor) : nnModule * SGD :=
  let f := (1 - d_lr (defaults o) * d_weight_decay (defaults o))%Q in
  (mknnModule (net m)
     (map (fun kv => (fst kv, mkTensor (t_shape (snd kv)) (map (Qmult f) (t_data (snd kv)))))
        (params m))
     (training m),
   o).

Definition same_class (y logits : Tensor) : bool :=
  match argmax_row (t_data y), argmax_row (t_data logits) with
  | Ok a, Ok b => Z.eqb a b
  | _, _ => false
  end.

(** Percentage of samples whose highest score is at the position of their
    label. *)
Definition sample_accuracy (y logits : list Tensor) : Q :=
  (100 * inject_Z (Z.of_nat (length (filter (fun b : bool => b) (zip_with same_class y logits))))
   / inject_Z (Z.of_nat (length y)))%Q.

Definition sample_engine : Engine :=
  mkEngine sample_add_weight_decay sample_rand sample_softmax_row
    sample_softmax_gradient sample_train_loader sample_lr_step
    sample_loss_value sample_sgd_step sample_accuracy.

(** A linear model on two features and two classes:
    W = [[1, 0], [0, 1]] and b = [0, 0] at construction. *)
Definition sample_model (kwargs : list (string * Z)) : nnModule :=
  mknnModule LinearNet
    [("fc.weight", mkTensor [2; 2] [1; 0; 0; 1]%Q);
     ("fc.bias", mkTensor [2] [0; 0]%Q)]
    true.

(** The adapter built by
    [CClassifierPyTorch(sample_model, epochs=2, batch_size=2,
    input_shape=(1, 2), softmax_outputs=...)], other arguments at their
    defaults. *)
Definition sample_new (softmax_outputs : bool) : pystate :=
  snd (__init__ sample_engine sample_model (1 # 100) (9 # 10) (1 # 10000)
         "cross-entropy" 2 (1 # 10) [50; 75] 2 true None None (Some [1; 2])
         softmax_outputs [] ∅ []).

(** A training set of three samples of class 1. *)
Definition sample_dataset : CDataset :=
  mkCDataset [[1; 2]; [0; 1]; [0; 5]]%Q [[0; 1]; [0; 1]; [0; 1]]%Q [0; 1] 2.

(** ** Vocabulary of the statements *)






(** The scores collected by the batch loop of [predict] for the model [m],
    without the log and the record of forward passes. *)
Fixpoint predict_scores (m : nnModule) (ds : CDatasetPyTorch)
  (batches : list (list nat)) (scores : option matrix) : result (option matrix) :=
  match batches with
  | [] => Ok scores
  | b :: rest =>
      rbind (fetch ds b)
        (fun sl => predict_scores m ds rest
                     (append_rows scores (to_scores (nn_call m (fst sl)))))
  end.

(** The value returned by [predict] on the adapter [c]. *)
Definition predict_value (E : Engine) (c : CClassifierPyTorch) (x : CArray)
  (return_decision_function : bool) : result prediction :=
  if is_clear c then Raise (ValueError "make sure the classifier is trained first.")
  else
    let x_carray := match preprocess c with
                    | Some f => f (atleast_2d x)
                    | None => atleast_2d x
                    end in
    rbind (DataLoader_new (mkDataset x_carray None None) (_batch_size c))
      (fun dl =>
         match _model c with
         | None => Raise AttributeError
         | Some m =>
             rbind (predict_scores (nn_eval m)
                      (mkDataset x_carray None (Some (np_reshape (_input_shape c))))
                      (batch_sampler dl) None)
               (fun scores =>
                  match scores with
                  | None => Raise AttributeError
                  | Some scores =>
                      let scores :=
                        if _softmax_outputs c then CSoftmax_softmax E scores else scores in
                      rbind (argmax_axis1 scores)
                        (fun labels =>
                           Ok (if return_decision_function
                               then LabelsAndScores labels scores
                               else Labels labels))
                  end)
         end).



(** The sample adapter after [fit(sample_dataset)]. *)
Definition sample_trained : pystate :=
  snd (fit sample_engine sample_dataset false true (sample_new false)).

















(** ** Copying the adapter, output of a layer *)





(** ** Further sample adapters and records *)





(** ** Vocabulary of the further statements *)





(** The adapter is what it was, or differs by the model being in
    evaluation mode. *)
Definition at_most_eval (c c' : CClassifierPyTorch) : Prop :=
  c' = c \/ exists m : nnModule, _model c = Some m /\ c' = set_model (Some (nn_eval m)) c.


(** * Properties *)


Tactic Notation "monad" "in" hyp(H) :=
  cbv beta iota delta
    [bind ret raise lift get_self update_self emit logger get_model
     get_optimizer store_optimizer new_optimizer] in H.

Lemma bind_Ok {A B : Type} (m : M A) (k : A -> M B) (st st1 : pystate) (a : A) :
  m st = (Ok a, st1) -> bind m k st = k a st1.
Proof. intros H. unfold bind. now rewrite H. Qed.

Lemma bind_Raise {A B : Type} (m : M A) (k : A -> M B) (st st1 : pystate) (e : exn) :
  m st = (Raise e, st1) -> bind m k st = (Raise e, st1).
Proof. intros H. unfold bind. now rewrite H. Qed.



(** C3. Entering the training loop with [start_epoch >= epochs] runs no
    epoch: the call returns at once, the adapter object (model parameters
    included) and every optimizer object are what they were, and the only
    thing left behind is one warning in the log. *)
Theorem fit_without_epochs (E : Engine) (ds : CDataset) (store_best_params : bool) (st : pystate) :
  _start_epoch (self st) >= _epochs (self st) ->
  _fit E ds store_best_params st =
    (Ok tt,
     mkState (self st) (heap st)
       (trace st ++
        [Logged WARNING "Maximum number of epochs reached, no training will be performed."])).
Proof.
  intros Hge. unfold _fit, bind, get_self, logger, emit.
  destruct (Z.leb_spec (_epochs (self st)) (_start_epoch (self st))) as [_ | Hlt].
  - reflexivity.
  - lia.
Qed.

(** C8. A gradient request on an array that is not vector-like (more than
    one row, or none) raises a ValueError as its first action: the state,
    and with it the record of forward passes, is untouched. *)
Theorem gradient_rejects_multi_row (E : Engine) (x : CArray) (y : option Z) (w : option CArray)
  (layer : option string) (st : pystate) :
  is_vector_like x = false ->
  _gradient_f E x y w layer st =
    (Raise (ValueError "gradient can be computed on one sample only."), st).
Proof.
  intros Hx. unfold _gradient_f. rewrite Hx. reflexivity.
Qed.












Lemma get_model_run (st : pystate) (m : nnModule) :
  _model (self st) = Some m -> get_model st = (Ok m, st).
Proof. intros H. unfold get_model, bind, get_self, ret. now rewrite H. Qed.

Lemma get_model_none (st : pystate) :
  _model (self st) = None -> get_model st = (Raise AttributeError, st).
Proof. intros H. unfold get_model, bind, get_self, raise. now rewrite H. Qed.

Lemma predict_loop_run (m : nnModule) (ds : CDatasetPyTorch) (batches : list (list nat)) :
  forall (scores : option matrix) (st : pystate),
    _model (self st) = Some m ->
    fst (predict_loop ds batches scores st) = predict_scores m ds batches scores /\
    self (snd (predict_loop ds batches scores st)) = self st.
Proof.
  induction batches as [| b rest IH]; intros scores st Hm.
  - split; reflexivity.
  - cbn [predict_loop predict_scores].
    destruct (fetch ds b) as [sl | e] eqn:Hf.
    + erewrite bind_Ok by reflexivity.
      erewrite bind_Ok by reflexivity.
      erewrite bind_Ok by (apply get_model_run; exact Hm).
      erewrite bind_Ok by reflexivity.
      cbn [rbind self heap trace fst snd].
      match goal with
      | |- context [predict_loop ds rest ?sc ?st2] =>
          destruct (IH sc st2 Hm) as [H1 H2]; rewrite H1, H2
      end.
      split; reflexivity.
    + erewrite bind_Raise by reflexivity. split; reflexivity.
Qed.

Lemma predict_run (E : Engine) (x : CArray) (rdf : bool) (st : pystate) :
  fst (predict E x rdf st) = predict_value E (self st) x rdf.
Proof.
  unfold predict, predict_value.
  erewrite bind_Ok by reflexivity.
  destruct (is_clear (self st)); [reflexivity |].
  set (x' := match preprocess (self st) with
             | Some f => f (atleast_2d x)
             | None => atleast_2d x
             end).
  assert (Hn : normalize (atleast_2d x) st = (Ok x', st)).
  { unfold normalize, x'. erewrite bind_Ok by reflexivity.
    destruct (preprocess (self st)); reflexivity. }
  erewrite bind_Ok by exact Hn.
  unfold _get_test_input_loader, DataLoader_new.
  destruct (_batch_size (self st) <=? 0) eqn:Hb.
  - erewrite bind_Raise; [reflexivity |].
    erewrite bind_Ok by reflexivity. rewrite Hb. reflexivity.
  - erewrite bind_Ok.
    2:{ erewrite bind_Ok by reflexivity. rewrite Hb.
        erewrite bind_Ok by reflexivity. reflexivity. }
    cbn [rbind dataset batch_sampler X Y].
    destruct (_model (self st)) as [m |] eqn:Hm.
    + erewrite bind_Ok by (apply get_model_run; exact Hm).
      erewrite bind_Ok by reflexivity.
      match goal with
      | |- context [bind (predict_loop ?ds ?bs None) _ ?st2] =>
          destruct (predict_loop_run (nn_eval m) ds bs None st2 eq_refl) as [H1 H2];
          unfold bind at 1; destruct (predict_loop ds bs None st2) as [[sc | e] st3]
      end.
      * cbn [fst snd] in H1, H2. rewrite <- H1. cbn [rbind].
        destruct sc as [sc |]; [| reflexivity].
        erewrite bind_Ok by reflexivity. rewrite H2.
        change (_softmax_outputs (self (mkState (set_model (Some (nn_eval m)) (self st))
                                          (heap st) (trace st))))
          with (_softmax_outputs (self st)).
        destruct (argmax_axis1 (if _softmax_outputs (self st)
                                then CSoftmax_softmax E sc else sc)); reflexivity.
      * cbn [fst snd] in H1. rewrite <- H1. reflexivity.
    + erewrite bind_Raise by (apply get_model_none; exact Hm). reflexivity.
Qed.































Lemma dot_add (r x d : list Q) :
  length x = length d ->
  (dot r (zip_with Qplus x d) == dot r x + dot r d)%Q.
Proof.
  revert x d. induction r as [| a r IH]; intros x d Hl.
  - cbn. ring.
  - destruct x as [| x0 x], d as [| d0 d]; try discriminate.
    + cbn. ring.
    + unfold dot in *. cbn. rewrite IH by (now inversion Hl). ring.
Qed.


















































Lemma predict_loop_frame (ds : CDatasetPyTorch) (batches : list (list nat)) :
  forall (scores : option matrix) (st : pystate),
    self (snd (predict_loop ds batches scores st)) = self st /\
    heap (snd (predict_loop ds batches scores st)) = heap st.
Proof.
  induction batches as [| b rest IH]; intros scores st.
  - split; reflexivity.
  - cbn [predict_loop].
    destruct (fetch ds b) as [sl | e] eqn:Hf.
    + erewrite bind_Ok by reflexivity.
      erewrite bind_Ok by reflexivity.
      destruct (_model (self st)) as [m |] eqn:Hm.
      * erewrite bind_Ok by (apply get_model_run; exact Hm).
        erewrite bind_Ok by reflexivity.
        cbn [self heap trace].
        match goal with
        | |- context [predict_loop ds rest ?sc ?st2] =>
            destruct (IH sc st2) as [H1 H2]; rewrite H1, H2
        end.
        split; reflexivity.
      * erewrite bind_Raise by (apply get_model_none; exact Hm). split; reflexivity.
    + erewrite bind_Raise by reflexivity. split; reflexivity.
Qed.

Lemma decision_loop_frame (E : Engine) (ds : CDatasetPyTorch) (y : Z)
  (batches : list (list nat)) :
  forall (scores : option (list Q)) (st : pystate),
    self (snd (_decision_function_loop E ds y batches scores st)) = self st /\
    heap (snd (_decision_function_loop E ds y batches scores st)) = heap st.
Proof.
  induction batches as [| b rest IH]; intros scores st.
  - split; reflexivity.
  - cbn [_decision_function_loop].
    destruct (fetch ds b) as [sl | e] eqn:Hf.
    + erewrite bind_Ok by reflexivity.
      erewrite bind_Ok by reflexivity.
      destruct (_model (self st)) as [m |] eqn:Hm.
      * erewrite bind_Ok by (apply get_model_run; exact Hm).
        erewrite bind_Ok by reflexivity.
        erewrite bind_Ok by reflexivity.
        cbn [self heap trace].
        match goal with
        | |- context [lift (column y ?lg)] => destruct (column y lg) as [col | e] eqn:Hc
        end.
        -- erewrite bind_Ok by reflexivity.
           match goal with
           | |- context [_decision_function_loop E ds y rest ?sc ?st2] =>
               destruct (IH sc st2) as [H1 H2]; rewrite H1, H2
           end.
           split; reflexivity.
        -- erewrite bind_Raise by reflexivity. split; reflexivity.
      * erewrite bind_Raise by (apply get_model_none; exact Hm). split; reflexivity.
    + erewrite bind_Raise by reflexivity. split; reflexivity.
Qed.

Lemma normalize_run (x : matrix) (st : pystate) :
  normalize x st =
    (Ok (match preprocess (self st) with
         | Some f => f x
         | None => x
         end), st).
Proof.
  unfold normalize. erewrite bind_Ok by reflexivity.
  destruct (preprocess (self st)); reflexivity.
Qed.

Lemma test_loader_frame (x : matrix) (st : pystate) :
  snd (_get_test_input_loader x st) = st.
Proof.
  unfold _get_test_input_loader, DataLoader_new.
  erewrite bind_Ok by reflexivity.
  destruct (_batch_size (self st) <=? 0).
  - erewrite bind_Raise by reflexivity. reflexivity.
  - erewrite bind_Ok by reflexivity. reflexivity.
Qed.

(** X13. [predict] and [decision_function], whether they return or
    raise, leave every optimizer object as it was, and the adapter too
    except that its model may be in evaluation mode. *)
Theorem inference_changes_only_mode (E : Engine) (x : CArray) (rdf : bool) (y : Z)
  (st : pystate) :
  (heap (snd (predict E x rdf st)) = heap st /\
   at_most_eval (self st) (self (snd (predict E x rdf st)))) /\
  (heap (snd (decision_function E x y st)) = heap st /\
   at_most_eval (self st) (self (snd (decision_function E x y st)))).
Proof.
  split.
  - unfold predict.
    erewrite bind_Ok by reflexivity.
    destruct (is_clear (self st)); [split; [reflexivity | left; reflexivity] |].
    erewrite bind_Ok by apply normalize_run.
    match goal with
    | |- context [_get_test_input_loader ?xx] =>
        pose proof (test_loader_frame xx st) as Hfr;
        destruct (_get_test_input_loader xx st) as [[dl | e] st1] eqn:Hld
    end; cbn [snd] in Hfr; subst st1.
    2:{ erewrite bind_Raise by exact Hld. split; [reflexivity | left; reflexivity]. }
    erewrite bind_Ok by exact Hld.
    destruct (_model (self st)) as [m |] eqn:Hm.
    2:{ erewrite bind_Raise by (apply get_model_none; exact Hm).
        split; [reflexivity | left; reflexivity]. }
    erewrite bind_Ok by (apply get_model_run; exact Hm).
    erewrite bind_Ok by reflexivity.
    match goal with
    | |- context [bind (predict_loop ?ds ?bs None) _ ?st2] =>
        destruct (predict_loop_frame ds bs None st2) as [H1 H2];
        destruct (predict_loop ds bs None st2) as [[sc | e] st3] eqn:Hloop
    end; cbn [snd self heap] in H1, H2.
    2:{ erewrite bind_Raise by exact Hloop. cbn [snd].
        split; [exact H2 | right; exists m; split; [exact Hm | exact H1]]. }
    erewrite bind_Ok by exact Hloop.
    destruct sc as [sc |].
    2:{ split; [exact H2 | right; exists m; split; [exact Hm | exact H1]]. }
    erewrite bind_Ok by reflexivity.
    match goal with
    | |- context [lift (argmax_axis1 ?s)] => destruct (argmax_axis1 s) as [ls | e] eqn:Ha
    end.
    + erewrite bind_Ok by reflexivity.
      split; [exact H2 | right; exists m; split; [exact Hm | exact H1]].
    + erewrite bind_Raise by reflexivity.
      split; [exact H2 | right; exists m; split; [exact Hm | exact H1]].
  - unfold decision_function, _decision_function.
    erewrite bind_Ok by apply normalize_run.
    erewrite bind_Ok by reflexivity.
    destruct (is_clear (self st)); [split; [reflexivity | left; reflexivity] |].
    match goal with
    | |- context [_get_test_input_loader ?xx] =>
        pose proof (test_loader_frame xx st) as Hfr;
        destruct (_get_test_input_loader xx st) as [[dl | e] st1] eqn:Hld
    end; cbn [snd] in Hfr; subst st1.
    2:{ erewrite bind_Raise by exact Hld. split; [reflexivity | left; reflexivity]. }
    erewrite bind_Ok by exact Hld.
    destruct (_model (self st)) as [m |] eqn:Hm.
    2:{ erewrite bind_Raise by (apply get_model_none; exact Hm).
        split; [reflexivity | left; reflexivity]. }
    erewrite bind_Ok by (apply get_model_run; exact Hm).
    erewrite bind_Ok by reflexivity.
    match goal with
    | |- context [bind (_decision_function_loop E ?ds y ?bs None) _ ?st2] =>
        destruct (decision_loop_frame E ds y bs None st2) as [H1 H2];
        destruct (_decision_function_loop E ds y bs None st2) as [[sc | e] st3] eqn:Hloop
    end; cbn [snd self heap] in H1, H2.
    2:{ erewrite bind_Raise by exact Hloop. cbn [snd].
        split; [exact H2 | right; exists m; split; [exact Hm | exact H1]]. }
    erewrite bind_Ok by exact Hloop.
    destruct sc as [sc |];
      (split; [exact H2 | right; exists m; split; [exact Hm | exact H1]]).
Qed.

(** X14. [predict] returns the same labels with and without the
    scores. *)
Theorem predict_flag_keeps_labels (E : Engine) (x : CArray) (st : pystate) :
  fst (predict E x false st) =
    rbind (fst (predict E x true st)) (fun p => Ok (Labels (labels_of p))).
Proof.
  rewrite !predict_run. unfold predict_value.
  destruct (is_clear (self st)); [reflexivity |].
  destruct (DataLoader_new _ _) as [dl | e]; cbn [rbind]; [| reflexivity].
  destruct (_model (self st)) as [m |]; [| reflexivity].
  destruct (predict_scores _ _ _ None) as [[sc |] | e]; cbn [rbind]; try reflexivity.
  destruct (argmax_axis1 _) as [ls | e]; reflexivity.
Qed.

(** X15. On a clear adapter [predict] and [decision_function] raise a
    ValueError and change nothing: no loader is built, the model mode is
    not switched and nothing is logged. *)
Theorem inference_requires_training (E : Engine) (x : CArray) (rdf : bool) (y : Z)
  (st : pystate) :
  is_clear (self st) = true ->
  predict E x rdf st =
    (Raise (ValueError "make sure the classifier is trained first."), st) /\
  decision_function E x y st =
    (Raise (ValueError "make sure the classifier is trained first."), st).
Proof.
  intros Hc. split.
  - unfold predict. erewrite bind_Ok by reflexivity. rewrite Hc. reflexivity.
  - unfold decision_function, _decision_function.
    erewrite bind_Ok by apply normalize_run.
    erewrite bind_Ok by reflexivity. rewrite Hc. reflexivity.
Qed.




(** * Examples on the sample adapter *)





(** C3 (witness). The trained sample adapter has run its two epochs. *)
Lemma fit_without_epochs_witness :
  _start_epoch (self sample_trained) >= _epochs (self sample_trained) /\
  _fit sample_engine sample_dataset true sample_trained =
    (Ok tt,
     mkState (self sample_trained) (heap sample_trained)
       (trace sample_trained ++
        [Logged WARNING "Maximum number of epochs reached, no training will be performed."])).
Proof.
  assert (H : _start_epoch (self sample_trained) >= _epochs (self sample_trained))
    by (vm_compute; discriminate).
  split; [exact H |].
  exact (fit_without_epochs sample_engine sample_dataset true sample_trained H).
Defined.

(** C8 (witness). A two-row array. *)
Lemma gradient_rejects_multi_row_witness :
  is_vector_like (Dense [[5; 7]; [1; 2]]%Q) = false /\
  _gradient_f sample_engine (Dense [[5; 7]; [1; 2]]%Q) (Some 0) None None sample_trained =
    (Raise (ValueError "gradient can be computed on one sample only."), sample_trained).
Proof.
  split; [reflexivity |].
  exact (gradient_rejects_multi_row sample_engine (Dense [[5; 7]; [1; 2]]%Q) (Some 0)
           None None sample_trained eq_refl).
Defined.
























(** X15 (witness). The new sample adapter is clear. *)
Lemma inference_requires_training_witness :
  is_clear (self (sample_new false)) = true /\
  predict sample_engine (Flat [5; 7]%Q) true (sample_new false) =
    (Raise (ValueError "make sure the classifier is trained first."), sample_new false) /\
  decision_function sample_engine (Flat [5; 7]%Q) 0 (sample_new false) =
    (Raise (ValueError "make sure the classifier is trained first."), sample_new false).
Proof.
  assert (H : is_clear (self (sample_new false)) = true) by reflexivity.
  split; [exact H |].
  exact (inference_requires_training sample_engine (Flat [5; 7]%Q) true 0
           (sample_new false) H).
Defined.

